(** * The eyecite extraction adapter (scripts/eyecite_extract.py)

    A shallow embedding of the adapter script and the properties of its
    stdin/stdout protocol.  The eyecite library is not part of the script: it
    is taken as a value of type [Eyecite] (three fallible functions), and the
    objects it hands back are described by what the script reads off them. *)

From Stdlib Require Import ZArith NArith Ascii String.
From stdpp Require Import base option list gmap.

Local Open Scope Z_scope.
#[local] Set Warnings "-register-all".

(** ** Python strings *)

(** A Python [str] is a sequence of Unicode code points. *)
Abbreviation pystr := (list N).

(** An ASCII literal of the source, as a [str]. *)
Definition py (s : string) : pystr :=
  List.map N_of_ascii (list_ascii_of_string s).

(** [str.isspace] on one code point (CPython's whitespace table). *)
Definition isspace (c : N) : bool :=
  (((9 <=? c) && (c <=? 13)) || ((28 <=? c) && (c <=? 32))
   || (c =? 133) || (c =? 160) || (c =? 5760)
   || ((8192 <=? c) && (c <=? 8202))
   || (c =? 8232) || (c =? 8233) || (c =? 8239) || (c =? 8287)
   || (c =? 12288))%N.

Fixpoint lstrip (s : pystr) : pystr :=
  match s with
  | c :: s' => if isspace c then lstrip s' else s
  | [] => []
  end.

Definition rstrip (s : pystr) : pystr := rev (lstrip (rev s)).

(** [s.strip()] with no argument. *)
Definition strip (s : pystr) : pystr := rstrip (lstrip s).

(** Truth value of a [str]: non-empty. *)
Definition str_bool (s : pystr) : bool :=
  match s with [] => false | _ => true end.

(** Truth value of an [Optional[str]]: neither [None] nor empty. *)
Definition opt_bool (v : option pystr) : bool :=
  match v with Some s => str_bool s | None => false end.

(** [f"{v}"] for a value that is [None] or a [str]. *)
Definition format_value (v : option pystr) : pystr :=
  match v with Some s => s | None => py "None" end.

(** ** Exceptions and results *)

(** An instance of [Exception]; [str(e)] is its message. *)
Inductive exn := Exception (msg : pystr).

Definition exn_str (e : exn) : pystr :=
  match e with Exception msg => msg end.

Inductive result (A : Type) :=
| Ok (a : A)
| Raise (e : exn).
Arguments Ok {A} a.
Arguments Raise {A} e.

Definition rbind {A B} (r : result A) (k : A -> result B) : result B :=
  match r with
  | Ok a => k a
  | Raise e => Raise e
  end.

(** A [for] loop over a list whose body may raise; the loop state is threaded
    through the iterations and a raise abandons it. *)
Fixpoint for_loop {A S} (body : S -> A -> result S) (items : list A) (s : S)
  : result S :=
  match items with
  | [] => Ok s
  | x :: rest => rbind (body s x) (for_loop body rest)
  end.

(** [enumerate(l)], counting from [i]. *)
Fixpoint enumerate_from {A} (i : nat) (l : list A) : list (nat * A) :=
  match l with
  | [] => []
  | x :: rest => (i, x) :: enumerate_from (S i) rest
  end.

Definition enumerate {A} (l : list A) : list (nat * A) := enumerate_from 0 l.

(** ** Objects handed back by eyecite *)

(** [type(cite)]: the six classes the script imports, or any other class. *)
Inductive PyType :=
| FullCaseCitation
| ShortCaseCitation
| IdCitation
| SupraCitation
| FullLawCitation
| IbidCitation
| OtherType (name : pystr).

#[global] Instance PyType_eq_dec : EqDecision PyType.
Proof. solve_decision. Defined.

(** An attribute as [getattr]/[hasattr] see it. *)
Inductive attr (A : Type) :=
| NoAttr
| AttrNone
| AttrVal (a : A).
Arguments NoAttr {A}.
Arguments AttrNone {A}.
Arguments AttrVal {A} a.

(** [getattr(obj, name, None)]. *)
Definition getattr_or_None {A} (a : attr A) : option A :=
  match a with
  | AttrVal v => Some v
  | _ => None
  end.

(** The [metadata] of a citation: an object with attributes, or a dict.
    Fields hold [None] or a [str]. *)
Inductive Metadata :=
| MetaObject (attrs : gmap (list N) (option (list N)))
| MetaDict (items : gmap (list N) (option (list N))).

(** A Python value as the script uses an antecedent: [bool(v)] and
    [str(v)]. *)
Record PyValue := {
  value_bool : bool;
  value_str : pystr;
}.

(** A citation object yielded by [get_citations]. *)
Record Cite := {
  cite_type : PyType;                             (* type(cite) *)
  cite_str : pystr;                               (* str(cite) *)
  cite_groups : attr (gmap (list N) (option (list N)));
  cite_metadata : attr Metadata;
  cite_span : option (result (Z * Z));            (* None: no span attribute;
                                                     otherwise what span() does *)
}.

(** An item yielded by iterating over what [resolve_citations] returns. *)
Record Resolved := {
  resolved_str : pystr;                           (* str(cite) *)
  resolved_antecedent : option PyValue;           (* None: no such attribute *)
}.

(** The eyecite functions the script imports. *)
Record Eyecite := {
  clean_text : pystr -> list pystr -> result pystr;
  get_citations : pystr -> result (list Cite);
  resolve_citations : list Cite -> result (list Resolved);
}.

(** The import at the top of the script either raises [ImportError] or
    binds the library. *)
Inductive Env :=
| EyeciteMissing
| EyeciteInstalled (lib : Eyecite).

(** ** Calls into the library, recorded in order *)

Inductive Call :=
| CleanText (text : pystr) (steps : list pystr)
| GetCitations (cleaned : pystr)
| ResolveCitations (citations : list Cite).

(** Computations that call the library: the calls made so far are threaded
    through, and a raise stops the computation. *)
Definition M (A : Type) : Type := list Call -> result A * list Call.

Definition ret {A} (a : A) : M A := fun calls => (Ok a, calls).

Definition bind {A B} (m : M A) (k : A -> M B) : M B :=
  fun calls =>
    match m calls with
    | (Ok a, calls') => k a calls'
    | (Raise e, calls') => (Raise e, calls')
    end.

Definition invoke {A} (c : Call) (r : result A) : M A :=
  fun calls => (r, calls ++ [c]).

Definition lift {A} (r : result A) : M A := fun calls => (r, calls).

Notation "x <- m ;; k" := (bind m (fun x => k))
  (at level 100, m at next level, right associativity).

(** ** JSON documents *)

Inductive json :=
| JNull
| JInt (z : Z)
| JStr (s : pystr)
| JArr (items : list json)
| JObj (fields : list (pystr * json)).

(** [None] or a [str], as JSON. *)
Definition json_opt_str (v : option pystr) : json :=
  match v with
  | Some s => JStr s
  | None => JNull
  end.

(** [None] or a list of ints, as JSON. *)
Definition json_opt_ints (v : option (list Z)) : json :=
  match v with
  | Some l => JArr (JInt <$> l)
  | None => JNull
  end.

(** [obj[key]] on a JSON object; [None] when the key is absent or the value
    is not an object. *)
Fixpoint fields_get (fields : list (pystr * json)) (key : pystr) : option json :=
  match fields with
  | [] => None
  | (k, v) :: rest => if decide (k = key) then Some v else fields_get rest key
  end.

Definition json_get (j : json) (key : pystr) : option json :=
  match j with
  | JObj fields => fields_get fields key
  | _ => None
  end.

(** ** The adapter *)

(** The dict literal of [get_citation_type], in source order. *)
Definition type_map : list (PyType * pystr) :=
  [ (FullCaseCitation, py "FULL_CASE");
    (ShortCaseCitation, py "SHORT_CASE");
    (IdCitation, py "ID");
    (IbidCitation, py "IBID");
    (SupraCitation, py "SUPRA");
    (FullLawCitation, py "STATUTE") ].

(** [d.get(key, default)] on a dict given by its items. *)
Fixpoint dict_get {K V} `{EqDecision K} (d : list (K * V)) (key : K) (default : V) : V :=
  match d with
  | [] => default
  | (k, v) :: rest => if decide (k = key) then v else dict_get rest key default
  end.

Definition get_citation_type (cite : Cite) : pystr :=
  dict_get type_map (cite_type cite) (py "UNKNOWN").

(** [safe_get(obj, attr, default)]: an attribute of an object, else a key of
    a dict, else the default.  The names the script asks for are not
    attributes of [dict] itself, so on a dict [hasattr] is false. *)
Definition safe_get (obj : option Metadata) (name : pystr)
    (default : option pystr) : option pystr :=
  match obj with
  | Some (MetaObject attrs) =>
      match attrs !! name with
      | Some v => v                               (* hasattr: getattr *)
      | None => default
      end
  | Some (MetaDict items) =>
      match items !! name with
      | Some v => v                               (* obj.get(attr, default) *)
      | None => default
      end
  | None => default
  end.

(** The dict built for one citation; its keys are fixed, so it is a record. *)
Record CitationObj := {
  index : Z;
  raw : pystr;
  citation_type : pystr;
  volume : option pystr;
  reporter : option pystr;
  page : option pystr;
  pinpoint : option pystr;
  year : option pystr;
  court : option pystr;
  plaintiff : option pystr;
  defendant : option pystr;
  case_name : option pystr;
  span : option (list Z);
  antecedent : option pystr;
}.

(** [citation_obj["case_name"] = v]. *)
Definition set_case_name (o : CitationObj) (v : option pystr) : CitationObj :=
  {| index := index o; raw := raw o; citation_type := citation_type o;
     volume := volume o; reporter := reporter o; page := page o;
     pinpoint := pinpoint o; year := year o; court := court o;
     plaintiff := plaintiff o; defendant := defendant o;
     case_name := v;
     span := span o; antecedent := antecedent o |}.

(** The record as [json.dumps] sees it, keys in insertion order. *)
Definition json_of_citation (o : CitationObj) : json :=
  JObj [ (py "index", JInt (index o));
         (py "raw", JStr (raw o));
         (py "citation_type", JStr (citation_type o));
         (py "volume", json_opt_str (volume o));
         (py "reporter", json_opt_str (reporter o));
         (py "page", json_opt_str (page o));
         (py "pinpoint", json_opt_str (pinpoint o));
         (py "year", json_opt_str (year o));
         (py "court", json_opt_str (court o));
         (py "plaintiff", json_opt_str (plaintiff o));
         (py "defendant", json_opt_str (defendant o));
         (py "case_name", json_opt_str (case_name o));
         (py "span", json_opt_ints (span o));
         (py "antecedent", json_opt_str (antecedent o)) ].

(** The first loop of [extract_citations]: one step, then the whole loop. *)
Definition antecedent_step (antecedent_map : gmap (list N) (list N))
    (cite : Resolved) : gmap (list N) (list N) :=
  match resolved_antecedent cite with
  | Some a =>
      if value_bool a
      then <[resolved_str cite := value_str a]> antecedent_map
      else antecedent_map
  | None => antecedent_map
  end.

Definition build_antecedent_map (resolved : list Resolved)
  : gmap (list N) (list N) :=
  fold_left antecedent_step resolved ∅.

(** [getattr(cite, "groups", {}) or {}]. *)
Definition groups_of (cite : Cite) : gmap (list N) (option (list N)) :=
  let g := match cite_groups cite with
           | NoAttr => Some ∅
           | AttrNone => None
           | AttrVal d => Some d
           end in
  match g with
  | Some d => if decide (d = ∅) then ∅ else d
  | None => ∅
  end.

(** [groups.get(key)]. *)
Definition groups_get (groups : gmap (list N) (option (list N))) (key : pystr)
  : option pystr :=
  match groups !! key with
  | Some v => v
  | None => None
  end.

(** [[cite.span()[0], cite.span()[1]] if hasattr(cite, "span") else None];
    the two calls of [span()] return the same pair. *)
Definition span_of (cite : Cite) : result (option (list Z)) :=
  match cite_span cite with
  | Some call => rbind call (fun s => Ok (Some [fst s; snd s]))
  | None => Ok None
  end.

(** The body of the second loop, up to [results.append]. *)
Definition convert (antecedent_map : gmap (list N) (list N)) (i : nat)
    (cite : Cite) : result CitationObj :=
  let groups := groups_of cite in
  let metadata := getattr_or_None (cite_metadata cite) in
  rbind (span_of cite) (fun sp =>
  let citation_obj :=
    {| index := Z.of_nat i;
       raw := cite_str cite;
       citation_type := get_citation_type cite;
       volume := groups_get groups (py "volume");
       reporter := groups_get groups (py "reporter");
       page := groups_get groups (py "page");
       pinpoint := safe_get metadata (py "pin_cite") None;
       year := safe_get metadata (py "year") None;
       court := safe_get metadata (py "court") None;
       plaintiff := safe_get metadata (py "plaintiff") None;
       defendant := safe_get metadata (py "defendant") None;
       case_name := None;
       span := sp;
       antecedent := antecedent_map !! cite_str cite |} in
  let citation_obj :=
    if opt_bool (plaintiff citation_obj) && opt_bool (defendant citation_obj)
    then set_case_name citation_obj
           (Some (format_value (plaintiff citation_obj) ++ py " v. "
                  ++ format_value (defendant citation_obj)))
    else citation_obj in
  Ok citation_obj).

(** The second loop: [results.append(citation_obj)] for each citation. *)
Definition convert_all (antecedent_map : gmap (list N) (list N))
    (citations : list Cite) : result (list CitationObj) :=
  for_loop (fun results '(i, cite) =>
              rbind (convert antecedent_map i cite)
                    (fun citation_obj => Ok (results ++ [citation_obj])))
           (enumerate citations) [].

Definition extract_citations (lib : Eyecite) (text : pystr)
  : M (list CitationObj) :=
  cleaned <- invoke (CleanText text
                       [py "html"; py "inline_whitespace"; py "underscores"])
                    (clean_text lib text
                       [py "html"; py "inline_whitespace"; py "underscores"]) ;;
  citations <- invoke (GetCitations cleaned) (get_citations lib cleaned) ;;
  resolved <- invoke (ResolveCitations citations)
                     (resolve_citations lib citations) ;;
  let antecedent_map := build_antecedent_map resolved in
  results <- lift (convert_all antecedent_map citations) ;;
  ret results.

(** ** The process *)

(** One [print(json.dumps(doc, indent=...))]. *)
Record Printed := {
  printed_indent : option nat;
  printed_doc : json;
}.

Record Outcome := {
  stdout : list Printed;
  exit_code : Z;
  calls : list Call;
}.

Definition main (lib : Eyecite) (text : pystr) : Outcome :=
  if negb (str_bool (strip text)) then
    {| stdout := [ {| printed_indent := None;
                      printed_doc := JObj [ (py "citations", JArr []);
                                            (py "count", JInt 0) ] |} ];
       exit_code := 0;
       calls := [] |}
  else
    match extract_citations lib text [] with
    | (Ok citations, cs) =>
        {| stdout := [ {| printed_indent := Some 2%nat;
                          printed_doc :=
                            JObj [ (py "citations",
                                    JArr (json_of_citation <$> citations));
                                   (py "count",
                                    JInt (Z.of_nat (length citations))) ] |} ];
           exit_code := 0;
           calls := cs |}
    | (Raise e, cs) =>
        {| stdout := [ {| printed_indent := None;
                          printed_doc := JObj [ (py "error", JStr (exn_str e));
                                                (py "citations", JArr []);
                                                (py "count", JInt 0) ] |} ];
           exit_code := 1;
           calls := cs |}
    end.

(** The whole script on a given standard input. *)
Definition script (env : Env) (stdin : pystr) : Outcome :=
  match env with
  | EyeciteMissing =>
      {| stdout := [ {| printed_indent := None;
                        printed_doc :=
                          JObj [ (py "error",
                                  JStr (py "eyecite not installed. Run: pip install eyecite"));
                                 (py "citations", JArr []) ] |} ];
         exit_code := 1;
         calls := [] |}
  | EyeciteInstalled lib => main lib stdin
  end.

(** ** Vocabulary of the statements *)

(** The text is empty or every character of it is whitespace. *)
Definition whitespace_only (s : pystr) : Prop :=
  Forall (fun c => isspace c = true) s.

(** The cleaning steps [extract_citations] asks for. *)
Definition clean_steps : list pystr :=
  [py "html"; py "inline_whitespace"; py "underscores"].

(** The extraction runs and raises. *)
Definition extraction_raises (lib : Eyecite) (stdin : pystr) : Prop :=
  ~ whitespace_only stdin /\
  exists e cs, extract_citations lib stdin [] = (Raise e, cs).

(** The extraction runs and returns. *)
Definition extraction_returns (lib : Eyecite) (stdin : pystr) : Prop :=
  ~ whitespace_only stdin /\
  exists rs cs, extract_citations lib stdin [] = (Ok rs, cs).

(** A successful run whose printed [citations] array holds the records
    [rs]. *)
Definition emits (env : Env) (stdin : pystr) (rs : list CitationObj) : Prop :=
  exit_code (script env stdin) = 0 /\
  exists p, stdout (script env stdin) = [p] /\
            json_get (printed_doc p) (py "citations")
            = Some (JArr (json_of_citation <$> rs)).

(** [c] is the citation found at position [k] of the cleaned text. *)
Definition found_at (lib : Eyecite) (stdin : pystr) (k : nat) (c : Cite)
  : Prop :=
  exists cleaned cites,
    clean_text lib stdin clean_steps = Ok cleaned /\
    get_citations lib cleaned = Ok cites /\
    cites !! k = Some c.

(** The map the records of a run are looked up in. *)
Definition antecedents_of (lib : Eyecite) (stdin : pystr)
    (antecedent_map : gmap (list N) (list N)) : Prop :=
  exists cleaned cites resolved,
    clean_text lib stdin clean_steps = Ok cleaned /\
    get_citations lib cleaned = Ok cites /\
    resolve_citations lib cites = Ok resolved /\
    antecedent_map = build_antecedent_map resolved.

(** The seven type strings, and the six classes that [type_map] maps. *)
Definition type_strings : list pystr :=
  [py "FULL_CASE"; py "SHORT_CASE"; py "ID"; py "IBID"; py "SUPRA";
   py "STATUTE"; py "UNKNOWN"].

Definition mapped_types : list PyType :=
  [FullCaseCitation; ShortCaseCitation; IdCitation; IbidCitation;
   SupraCitation; FullLawCitation].

(** The item of [resolved] is truthy-linked to an antecedent. *)
Definition linked (r : Resolved) (a : PyValue) : Prop :=
  resolved_antecedent r = Some a /\ value_bool a = true.



(** The items the resolution step of a run yields. *)
Definition resolution_of (lib : Eyecite) (stdin : pystr)
    (resolved : list Resolved) : Prop :=
  exists cleaned cites,
    clean_text lib stdin clean_steps = Ok cleaned /\
    get_citations lib cleaned = Ok cites /\
    resolve_citations lib cites = Ok resolved.

(** The citation's [span()] raises. *)
Definition span_fails (c : Cite) : Prop :=
  exists e, cite_span c = Some (Raise e).

(** [c], at position [k], is the first citation whose [span()] raises, and
    it raises [e]. *)
Definition first_span_failure (cites : list Cite) (k : nat) (c : Cite)
    (e : exn) : Prop :=
  cites !! k = Some c /\
  cite_span c = Some (Raise e) /\
  forall j c', (j < k)%nat -> cites !! j = Some c' -> ~ span_fails c'.

(** The document printed when the extraction raises [e]. *)
Definition error_doc (e : exn) : Printed :=
  {| printed_indent := None;
     printed_doc := JObj [ (py "error", JStr (exn_str e));
                           (py "citations", JArr []);
                           (py "count", JInt 0) ] |}.

(** The record with its [antecedent] blanked. *)
Definition without_antecedent (o : CitationObj) : CitationObj :=
  {| index := index o; raw := raw o; citation_type := citation_type o;
     volume := volume o; reporter := reporter o; page := page o;
     pinpoint := pinpoint o; year := year o; court := court o;
     plaintiff := plaintiff o; defendant := defendant o;
     case_name := case_name o;
     span := span o; antecedent := None |}.

(** The dict behind the citation's [metadata], object or dict alike. *)
Definition metadata_items (c : Cite)
  : option (gmap (list N) (option (list N))) :=
  match cite_metadata c with
  | AttrVal (MetaObject attrs) => Some attrs
  | AttrVal (MetaDict items) => Some items
  | _ => None
  end.

(** ** Sample data: the two-citation text of the specification *)

Module Sample.

Definition roe_text : pystr :=
  py "Roe v. Wade, 410 U.S. 113 (1973). Id. at 120.".

Definition roe : Cite :=
  {| cite_type := FullCaseCitation;
     cite_str := py "410 U.S. 113";
     cite_groups :=
       AttrVal (<[py "volume" := Some (py "410")]>
                  (<[py "reporter" := Some (py "U.S.")]>
                     (<[py "page" := Some (py "113")]> ∅)));
     cite_metadata :=
       AttrVal (MetaObject
                  (<[py "plaintiff" := Some (py "Roe")]>
                     (<[py "defendant" := Some (py "Wade")]>
                        (<[py "year" := Some (py "1973")]>
                           (<[py "court" := None]> ∅)))));
     cite_span := Some (Ok (14, 26)) |}.

Definition id_cite : Cite :=
  {| cite_type := IdCitation;
     cite_str := py "Id. at 120";
     cite_groups := AttrVal ∅;
     cite_metadata :=
       AttrVal (MetaDict (<[py "pin_cite" := Some (py "at 120")]> ∅));
     cite_span := Some (Ok (35, 38)) |}.

Definition as_value (c : Cite) : PyValue :=
  {| value_bool := true; value_str := cite_str c |}.

(** A library that leaves the text as it is, finds [cites] in any text
    and resolves them to the items [resolved]. *)
Definition lib_returning (cites : list Cite) (resolved : list Resolved)
  : Eyecite :=
  {| clean_text := fun text _ => Ok text;
     get_citations := fun _ => Ok cites;
     resolve_citations := fun _ => Ok resolved |}.

Definition roe_resolved : list Resolved :=
  [ {| resolved_str := cite_str roe; resolved_antecedent := None |};
    {| resolved_str := cite_str id_cite;
       resolved_antecedent := Some (as_value roe) |} ].

(** The two citations, the second resolved to the first. *)
Definition lib : Eyecite := lib_returning [roe; id_cite] roe_resolved.

(** The two records the script makes of them. *)
Definition roe_record : CitationObj :=
  {| index := 0;
     raw := py "410 U.S. 113";
     citation_type := py "FULL_CASE";
     volume := Some (py "410");
     reporter := Some (py "U.S.");
     page := Some (py "113");
     pinpoint := None;
     year := Some (py "1973");
     court := None;
     plaintiff := Some (py "Roe");
     defendant := Some (py "Wade");
     case_name := Some (py "Roe v. Wade");
     span := Some [14; 26];
     antecedent := None |}.

Definition id_record_at (i : Z) : CitationObj :=
  {| index := i;
     raw := py "Id. at 120";
     citation_type := py "ID";
     volume := None; reporter := None; page := None;
     pinpoint := Some (py "at 120");
     year := None; court := None;
     plaintiff := None; defendant := None;
     case_name := None;
     span := Some [35; 38];
     antecedent := Some (py "410 U.S. 113") |}.

Definition id_record : CitationObj := id_record_at 1.

(** A library whose cleaning step raises an exception with no message,
    as [raise ValueError()] or a failed bare [assert] does. *)
Definition silent_lib : Eyecite :=
  {| clean_text := fun _ _ => Raise (Exception []);
     get_citations := get_citations lib;
     resolve_citations := resolve_citations lib |}.

(** A citation whose plaintiff came out as the empty string. *)
Definition nameless : Cite :=
  {| cite_type := FullCaseCitation;
     cite_str := py "410 U.S. 113";
     cite_groups := NoAttr;
     cite_metadata :=
       AttrVal (MetaObject
                  (<[py "plaintiff" := Some []]>
                     (<[py "defendant" := Some (py "Wade")]> ∅)));
     cite_span := None |}.

Definition nameless_record : CitationObj :=
  {| index := 0;
     raw := py "410 U.S. 113";
     citation_type := py "FULL_CASE";
     volume := None; reporter := None; page := None;
     pinpoint := None; year := None; court := None;
     plaintiff := Some [];
     defendant := Some (py "Wade");
     case_name := None;
     span := None;
     antecedent := None |}.

(** A citation whose [span()] returns an end before the start. *)
Definition backwards : Cite :=
  {| cite_type := OtherType (py "UnknownCitation");
     cite_str := py "113";
     cite_groups := AttrNone;
     cite_metadata := AttrNone;
     cite_span := Some (Ok (5, 3)) |}.

Definition backwards_record : CitationObj :=
  {| index := 0;
     raw := py "113";
     citation_type := py "UNKNOWN";
     volume := None; reporter := None; page := None;
     pinpoint := None; year := None; court := None;
     plaintiff := None; defendant := None;
     case_name := None;
     span := Some [5; 3];
     antecedent := None |}.

(** A citation whose [span()] raises. *)
Definition broken : Cite :=
  {| cite_type := ShortCaseCitation;
     cite_str := py "410 U.S., at 120";
     cite_groups := NoAttr;
     cite_metadata := NoAttr;
     cite_span := Some (Raise (Exception (py "no token"))) |}.

End Sample.

(** * Properties *)

(** ** Whitespace *)

Lemma lstrip_nil (s : pystr) : lstrip s = [] <-> whitespace_only s.
Proof.
  unfold whitespace_only.
  induction s as [|c s IH]; simpl.
  - split; [constructor | reflexivity].
  - destruct (isspace c) eqn:Hc.
    + rewrite IH. split; [by constructor | by inversion 1].
    + split; [discriminate | inversion 1; congruence].
Qed.

Lemma lstrip_not_space (s : pystr) (c : N) (s' : pystr) :
  lstrip s = c :: s' -> isspace c = false.
Proof.
  induction s as [|d s IH]; simpl; [discriminate|].
  destruct (isspace d) eqn:Hd; [exact IH|].
  intros [= <- _]. exact Hd.
Qed.

Lemma strip_nil (s : pystr) : strip s = [] <-> whitespace_only s.
Proof.
  unfold strip, rstrip. split.
  - intros H.
    assert (Hr : lstrip (rev (lstrip s)) = []).
    { rewrite <- (rev_involutive (lstrip (rev (lstrip s)))), H. reflexivity. }
    apply lstrip_nil in Hr.
    apply Forall_rev in Hr. rewrite rev_involutive in Hr.
    destruct (lstrip s) as [|c s'] eqn:Hs.
    + by apply lstrip_nil.
    + apply lstrip_not_space in Hs. inversion Hr; congruence.
  - intros H. apply lstrip_nil in H. rewrite H. reflexivity.
Qed.

Lemma str_bool_strip (s : pystr) :
  str_bool (strip s) = false <-> whitespace_only s.
Proof.
  rewrite <- strip_nil. destruct (strip s); simpl; split; congruence.
Qed.

(** ** The conversion loop *)

Lemma for_loop_convert amap (cites : list Cite) :
  forall (i : nat) (acc rs : list CitationObj),
    for_loop (fun results '(i, cite) =>
                rbind (convert amap i cite)
                      (fun citation_obj => Ok (results ++ [citation_obj])))
             (enumerate_from i cites) acc = Ok rs ->
    exists new,
      rs = acc ++ new /\
      length new = length cites /\
      forall k c, cites !! k = Some c ->
        exists r, new !! k = Some r /\ convert amap (i + k) c = Ok r.
Proof.
  induction cites as [|c cites IH]; intros i acc rs; simpl.
  - intros [= <-]. exists []. rewrite app_nil_r. by repeat split.
  - destruct (convert amap i c) as [o|e] eqn:Ho; simpl; [|discriminate].
    intros H. apply IH in H as (new & -> & Hlen & Hnew).
    exists (o :: new). rewrite <- app_assoc. simpl.
    repeat split; [by rewrite Hlen|].
    intros [|k] c' Hk; simpl in *.
    + injection Hk as <-. exists o. by rewrite Nat.add_0_r.
    + destruct (Hnew k c' Hk) as (r & Hr & Hc). exists r.
      by rewrite Nat.add_succ_r.
Qed.

Lemma convert_all_ok amap (cites : list Cite) (rs : list CitationObj) :
  convert_all amap cites = Ok rs ->
  length rs = length cites /\
  forall k c, cites !! k = Some c ->
    exists r, rs !! k = Some r /\ convert amap k c = Ok r.
Proof.
  unfold convert_all, enumerate. intros H.
  apply for_loop_convert in H as (new & -> & Hlen & Hnew).
  simpl. split; [exact Hlen|]. exact Hnew.
Qed.

(** Every record comes from the citation at its own position. *)
Lemma convert_all_lookup amap (cites : list Cite) (rs : list CitationObj) :
  convert_all amap cites = Ok rs ->
  forall k r, rs !! k = Some r ->
    exists c, cites !! k = Some c /\ convert amap k c = Ok r.
Proof.
  intros H k r Hr. apply convert_all_ok in H as [Hlen Hall].
  destruct (cites !! k) as [c|] eqn:Hc.
  - destruct (Hall k c Hc) as (r' & Hr' & Hconv).
    exists c. split; [reflexivity|]. congruence.
  - apply lookup_ge_None in Hc. apply lookup_lt_Some in Hr. lia.
Qed.

(** ** Runs of the extraction *)

Lemma extract_citations_ok lib text calls0 rs calls1 :
  extract_citations lib text calls0 = (Ok rs, calls1) ->
  exists cleaned cites resolved,
    clean_text lib text clean_steps = Ok cleaned /\
    get_citations lib cleaned = Ok cites /\
    resolve_citations lib cites = Ok resolved /\
    convert_all (build_antecedent_map resolved) cites = Ok rs /\
    calls1 = calls0 ++ [CleanText text clean_steps; GetCitations cleaned;
                        ResolveCitations cites].
Proof.
  unfold extract_citations, bind, invoke, lift, ret, clean_steps.
  destruct (clean_text lib text _) as [cleaned|] eqn:H1; [|discriminate].
  destruct (get_citations lib cleaned) as [cites|] eqn:H2; [|discriminate].
  destruct (resolve_citations lib cites) as [resolved|] eqn:H3; [|discriminate].
  destruct (convert_all _ cites) as [rs'|] eqn:H4; [|discriminate].
  intros [= <- <-]. exists cleaned, cites, resolved.
  repeat split; try assumption. by rewrite <- !app_assoc.
Qed.

Lemma extract_citations_raise_or_ok lib text calls0 :
  (exists rs calls1, extract_citations lib text calls0 = (Ok rs, calls1)) \/
  (exists e calls1, extract_citations lib text calls0 = (Raise e, calls1)).
Proof.
  destruct (extract_citations lib text calls0) as [[rs|e] calls1]; eauto.
Qed.

(** ** Reading the printed document *)

Lemma fields_get_here (k : pystr) (v : json) rest :
  fields_get ((k, v) :: rest) k = Some v.
Proof. simpl. by rewrite decide_True. Qed.

Lemma fields_get_next (k k' : pystr) (v : json) rest :
  k <> k' -> fields_get ((k, v) :: rest) k' = fields_get rest k'.
Proof. intros H. simpl. by rewrite decide_False. Qed.

Lemma json_opt_str_inj (a b : option pystr) :
  json_opt_str a = json_opt_str b -> a = b.
Proof. destruct a, b; simpl; congruence. Qed.

Lemma map_injective {A B} (f : A -> B) :
  (forall x y, f x = f y -> x = y) ->
  forall l l' : list A, f <$> l = f <$> l' -> l = l'.
Proof.
  intros Hf l. induction l as [|x l IH]; intros [|y l']; simpl;
    try congruence.
  intros [= H1 H2]. f_equal; [by apply Hf | by apply IH].
Qed.

Lemma map_JInt_inj (l l' : list Z) :
  JInt <$> l = JInt <$> l' -> l = l'.
Proof. apply map_injective. congruence. Qed.

Lemma json_opt_ints_inj (a b : option (list Z)) :
  json_opt_ints a = json_opt_ints b -> a = b.
Proof.
  destruct a, b; simpl; try congruence.
  intros [= H]. f_equal. by apply map_JInt_inj.
Qed.

Lemma json_of_citation_inj (o o' : CitationObj) :
  json_of_citation o = json_of_citation o' -> o = o'.
Proof.
  destruct o, o'. unfold json_of_citation. simpl. intros H.
  injection H as -> -> -> Hv Hr Hp Hpin Hy Hc Hpl Hd Hcn Hsp Ha.
  apply json_opt_str_inj in Hv, Hr, Hp, Hpin, Hy, Hc, Hpl, Hd, Hcn, Ha.
  apply json_opt_ints_inj in Hsp. by subst.
Qed.

Lemma map_json_of_citation_inj (rs rs' : list CitationObj) :
  json_of_citation <$> rs = json_of_citation <$> rs' -> rs = rs'.
Proof. apply map_injective, json_of_citation_inj. Qed.

Lemma main_whitespace lib stdin :
  whitespace_only stdin ->
  main lib stdin
  = {| stdout := [ {| printed_indent := None;
                      printed_doc := JObj [ (py "citations", JArr []);
                                            (py "count", JInt 0) ] |} ];
       exit_code := 0;
       calls := [] |}.
Proof.
  intros H. apply str_bool_strip in H. unfold main. by rewrite H.
Qed.

Lemma main_returns lib stdin rs cs :
  ~ whitespace_only stdin ->
  extract_citations lib stdin [] = (Ok rs, cs) ->
  main lib stdin
  = {| stdout := [ {| printed_indent := Some 2%nat;
                      printed_doc :=
                        JObj [ (py "citations",
                                JArr (json_of_citation <$> rs));
                               (py "count", JInt (Z.of_nat (length rs))) ] |} ];
       exit_code := 0;
       calls := cs |}.
Proof.
  intros Hws H. unfold main. rewrite H.
  destruct (str_bool (strip stdin)) eqn:Hb; [reflexivity|].
  by apply str_bool_strip in Hb.
Qed.

Lemma main_raises lib stdin e cs :
  ~ whitespace_only stdin ->
  extract_citations lib stdin [] = (Raise e, cs) ->
  main lib stdin
  = {| stdout := [ {| printed_indent := None;
                      printed_doc := JObj [ (py "error", JStr (exn_str e));
                                            (py "citations", JArr []);
                                            (py "count", JInt 0) ] |} ];
       exit_code := 1;
       calls := cs |}.
Proof.
  intros Hws H. unfold main. rewrite H.
  destruct (str_bool (strip stdin)) eqn:Hb; [reflexivity|].
  by apply str_bool_strip in Hb.
Qed.

(** The three ways [main] can go. *)
Lemma main_cases lib stdin :
  (whitespace_only stdin) \/
  extraction_returns lib stdin \/
  extraction_raises lib stdin.
Proof.
  destruct (str_bool (strip stdin)) eqn:Hb.
  - assert (Hws : ~ whitespace_only stdin).
    { intros H. apply str_bool_strip in H. congruence. }
    right.
    destruct (extract_citations_raise_or_ok lib stdin [])
      as [(rs & cs & H)|(e & cs & H)].
    + left. split; eauto.
    + right. split; eauto.
  - left. by apply str_bool_strip.
Qed.

Lemma emits_inv env stdin rs :
  emits env stdin rs ->
  exists lib, env = EyeciteInstalled lib /\
    ((whitespace_only stdin /\ rs = []) \/
     (~ whitespace_only stdin /\
      exists cs, extract_citations lib stdin [] = (Ok rs, cs))).
Proof.
  intros [Hexit (p & Hout & Hget)].
  destruct env as [|lib]; [discriminate|]. exists lib. split; [reflexivity|].
  simpl in *.
  destruct (main_cases lib stdin)
    as [Hws|[[Hws (rs' & cs & H)]|[Hws (e & cs & H)]]].
  - left. split; [exact Hws|].
    rewrite (main_whitespace _ _ Hws) in Hout. simpl in Hout.
    injection Hout as <-. cbn [printed_doc json_get] in Hget.
    rewrite fields_get_here in Hget.
    injection Hget as Hget. by destruct rs.
  - right. split; [exact Hws|]. exists cs.
    rewrite (main_returns _ _ _ _ Hws H) in Hout. simpl in Hout.
    injection Hout as <-. cbn [printed_doc json_get] in Hget.
    rewrite fields_get_here in Hget.
    injection Hget as Hget. apply map_json_of_citation_inj in Hget.
    by subst.
  - rewrite (main_raises _ _ _ _ Hws H) in Hexit. discriminate.
Qed.

Lemma emits_intro lib stdin rs cs :
  ~ whitespace_only stdin ->
  extract_citations lib stdin [] = (Ok rs, cs) ->
  emits (EyeciteInstalled lib) stdin rs.
Proof.
  intros Hws H. unfold emits. simpl. rewrite (main_returns _ _ _ _ Hws H).
  simpl. split; [reflexivity|]. eexists. split; [reflexivity|].
  cbn [printed_doc json_get]. apply fields_get_here.
Qed.

(** ** Runs on the sample data *)

Lemma roe_text_not_whitespace : ~ whitespace_only Sample.roe_text.
Proof. intros H. apply str_bool_strip in H. vm_compute in H. discriminate. Qed.

Lemma roe_text_emits :
  emits (EyeciteInstalled Sample.lib) Sample.roe_text
        [Sample.roe_record; Sample.id_record].
Proof.
  apply (emits_intro _ _ _
           [CleanText Sample.roe_text clean_steps;
            GetCitations Sample.roe_text;
            ResolveCitations [Sample.roe; Sample.id_cite]]);
    [exact roe_text_not_whitespace | vm_compute; reflexivity].
Qed.

Lemma twin_text_emits :
  emits (EyeciteInstalled
           (Sample.lib_returning [Sample.id_cite; Sample.id_cite]
                                 Sample.roe_resolved))
        Sample.roe_text [Sample.id_record_at 0; Sample.id_record_at 1].
Proof.
  apply (emits_intro _ _ _
           [CleanText Sample.roe_text clean_steps;
            GetCitations Sample.roe_text;
            ResolveCitations [Sample.id_cite; Sample.id_cite]]);
    [exact roe_text_not_whitespace | vm_compute; reflexivity].
Qed.

(** ** The protocol: output document and exit code *)

(** C1: in every run that succeeds (exit code 0), the printed document has a
    [citations] array and a [count] field, and [count] is the length of the
    array. *)
Theorem count_is_len_citations env stdin :
  exit_code (script env stdin) = 0 ->
  exists p items,
    stdout (script env stdin) = [p] /\
    json_get (printed_doc p) (py "citations") = Some (JArr items) /\
    json_get (printed_doc p) (py "count")
    = Some (JInt (Z.of_nat (length items))).
Proof.
  assert (Hne : py "citations" <> py "count") by (vm_compute; discriminate).
  destruct env as [|lib]; simpl; [discriminate|].
  destruct (main_cases lib stdin)
    as [Hws|[[Hws (rs & cs & H)]|[Hws (e & cs & H)]]].
  - rewrite (main_whitespace _ _ Hws). intros _.
    eexists _, []. split; [reflexivity|]. cbn [printed_doc json_get].
    split; [apply fields_get_here|].
    rewrite fields_get_next by exact Hne. apply fields_get_here.
  - rewrite (main_returns _ _ _ _ Hws H). intros _.
    eexists _, (json_of_citation <$> rs). split; [reflexivity|].
    cbn [printed_doc json_get].
    split; [apply fields_get_here|].
    rewrite fields_get_next by exact Hne. rewrite length_fmap.
    apply fields_get_here.
  - rewrite (main_raises _ _ _ _ Hws H). discriminate.
Qed.

Lemma count_is_len_citations_witness :
  exit_code (script (EyeciteInstalled Sample.lib) Sample.roe_text) = 0 /\
  exists p items,
    stdout (script (EyeciteInstalled Sample.lib) Sample.roe_text) = [p] /\
    json_get (printed_doc p) (py "citations") = Some (JArr items) /\
    json_get (printed_doc p) (py "count")
    = Some (JInt (Z.of_nat (length items))).
Proof.
  split; [reflexivity|].
  apply (count_is_len_citations (EyeciteInstalled Sample.lib) Sample.roe_text).
  reflexivity.
Defined.

(** C2: on an input that is empty or made of whitespace only, the script
    prints the compact document [{"citations": [], "count": 0}], exits with
    code 0 and makes no call into the library. *)
Theorem whitespace_input_outcome lib stdin :
  whitespace_only stdin ->
  script (EyeciteInstalled lib) stdin
  = {| stdout := [ {| printed_indent := None;
                      printed_doc := JObj [ (py "citations", JArr []);
                                            (py "count", JInt 0) ] |} ];
       exit_code := 0;
       calls := [] |}.
Proof. intros H. simpl. by apply main_whitespace. Qed.

Lemma whitespace_input_outcome_witness :
  whitespace_only [32; 10; 9; 12288]%N /\
  script (EyeciteInstalled Sample.lib) [32; 10; 9; 12288]%N
  = {| stdout := [ {| printed_indent := None;
                      printed_doc := JObj [ (py "citations", JArr []);
                                            (py "count", JInt 0) ] |} ];
       exit_code := 0;
       calls := [] |}.
Proof.
  assert (H : whitespace_only [32; 10; 9; 12288]%N)
    by (repeat constructor).
  split; [exact H|].
  exact (whitespace_input_outcome Sample.lib [32; 10; 9; 12288]%N H).
Defined.

(** C3, as the script behaves: when the extraction raises, the script prints
    the compact document with [error] set to [str(e)] (whatever that string
    is, the empty one included), an empty [citations] array and [count] 0,
    and exits with code 1. *)
Theorem extraction_error_outcome lib stdin e cs :
  ~ whitespace_only stdin ->
  extract_citations lib stdin [] = (Raise e, cs) ->
  stdout (script (EyeciteInstalled lib) stdin)
  = [ {| printed_indent := None;
         printed_doc := JObj [ (py "error", JStr (exn_str e));
                               (py "citations", JArr []);
                               (py "count", JInt 0) ] |} ] /\
  exit_code (script (EyeciteInstalled lib) stdin) = 1.
Proof.
  intros Hws H. simpl. rewrite (main_raises _ _ _ _ Hws H). by split.
Qed.

Lemma extraction_error_outcome_witness :
  stdout (script (EyeciteInstalled Sample.silent_lib) Sample.roe_text)
  = [ {| printed_indent := None;
         printed_doc := JObj [ (py "error", JStr []);
                               (py "citations", JArr []);
                               (py "count", JInt 0) ] |} ] /\
  exit_code (script (EyeciteInstalled Sample.silent_lib) Sample.roe_text) = 1.
Proof.
  exact (extraction_error_outcome Sample.silent_lib Sample.roe_text
           (Exception [])
           [CleanText Sample.roe_text clean_steps]
           roe_text_not_whitespace eq_refl).
Defined.

(** C3, as stated, fails: the extraction raises an exception whose string
    form is empty, and the printed [error] is that empty string. *)
Lemma error_message_may_be_empty :
  extraction_raises Sample.silent_lib Sample.roe_text /\
  ~ exists msg,
      msg <> [] /\
      stdout (script (EyeciteInstalled Sample.silent_lib) Sample.roe_text)
      = [ {| printed_indent := None;
             printed_doc := JObj [ (py "error", JStr msg);
                                   (py "citations", JArr []);
                                   (py "count", JInt 0) ] |} ].
Proof.
  split.
  - split; [exact roe_text_not_whitespace|].
    by exists (Exception []), [CleanText Sample.roe_text clean_steps].
  - intros (msg & Hne & H). vm_compute in H. injection H as H. congruence.
Qed.


(** ** Records *)

Lemma convert_fields amap k c r :
  convert amap k c = Ok r ->
  index r = Z.of_nat k /\
  raw r = cite_str c /\
  citation_type r = get_citation_type c /\
  antecedent r = amap !! cite_str c /\
  span_of c = Ok (span r) /\
  case_name r
  = (if opt_bool (plaintiff r) && opt_bool (defendant r)
     then Some (format_value (plaintiff r) ++ py " v. "
                ++ format_value (defendant r))
     else None).
Proof.
  unfold convert. destruct (span_of c) as [sp|e]; simpl; [|discriminate].
  destruct (opt_bool (safe_get _ (py "plaintiff") None)
            && opt_bool (safe_get _ (py "defendant") None)) eqn:Hb;
    intros [= <-]; simpl; rewrite Hb; by repeat split.
Qed.

Lemma emits_record lib stdin rs k r :
  emits (EyeciteInstalled lib) stdin rs ->
  rs !! k = Some r ->
  exists c amap,
    found_at lib stdin k c /\ antecedents_of lib stdin amap /\
    convert amap k c = Ok r.
Proof.
  intros He Hr. apply emits_inv in He as (lib' & [= <-] & He).
  destruct He as [[_ ->]|[_ (cs & He)]]; [by rewrite lookup_nil in Hr|].
  apply extract_citations_ok in He
    as (cleaned & cites & resolved & H1 & H2 & H3 & H4 & _).
  destruct (convert_all_lookup _ _ _ H4 _ _ Hr) as (c & Hc & Hconv).
  exists c, (build_antecedent_map resolved).
  split; [by exists cleaned, cites|]. split; [|exact Hconv].
  by exists cleaned, cites, resolved.
Qed.

Lemma emits_installed env stdin rs :
  emits env stdin rs -> exists lib, env = EyeciteInstalled lib.
Proof. intros H. apply emits_inv in H as (lib & -> & _). by exists lib. Qed.

(** C5: in a successful output every record's [index] is its position in the
    array, so the indices are 0, 1, 2, ... without gap; and unless the input
    was whitespace only, the records are, position by position, the
    conversions of the citations in the order [get_citations] returned
    them for the cleaned text. *)
Theorem index_is_position lib stdin rs :
  emits (EyeciteInstalled lib) stdin rs ->
  (forall k r, rs !! k = Some r -> index r = Z.of_nat k) /\
  index <$> rs = Z.of_nat <$> seq 0 (length rs) /\
  ((whitespace_only stdin /\ rs = []) \/
   exists cleaned cites,
     clean_text lib stdin clean_steps = Ok cleaned /\
     get_citations lib cleaned = Ok cites /\
     length rs = length cites /\
     raw <$> rs = cite_str <$> cites /\
     forall k c, cites !! k = Some c ->
       exists r amap, rs !! k = Some r /\ convert amap k c = Ok r).
Proof.
  intros He.
  assert (Hidx : forall k r, rs !! k = Some r -> index r = Z.of_nat k).
  { intros k r Hr.
    destruct (emits_record _ _ _ _ _ He Hr) as (c & amap & _ & _ & Hc).
    by apply convert_fields in Hc as (? & _). }
  split; [exact Hidx|]. split.
  - apply list_eq. intros k.
    rewrite !list_lookup_fmap.
    destruct (rs !! k) as [r|] eqn:Hr; simpl.
    + rewrite (Hidx _ _ Hr).
      rewrite lookup_seq_lt by (by apply lookup_lt_Some in Hr). done.
    + apply lookup_ge_None in Hr. by rewrite lookup_seq_ge.
  - apply emits_inv in He as (lib' & [= <-] & He).
    destruct He as [?|[_ (cs & He)]]; [by left|right].
    apply extract_citations_ok in He
      as (cleaned & cites & resolved & H1 & H2 & H3 & H4 & _).
    exists cleaned, cites. split; [exact H1|]. split; [exact H2|].
    destruct (convert_all_ok _ _ _ H4) as [Hlen Hall].
    split; [exact Hlen|]. split.
    + apply list_eq. intros k.
      rewrite !list_lookup_fmap.
      destruct (cites !! k) as [c|] eqn:Hc; simpl.
      * destruct (Hall k c Hc) as (r & -> & Hconv). simpl.
        by apply convert_fields in Hconv as (_ & -> & _).
      * apply lookup_ge_None in Hc. rewrite <- Hlen in Hc.
        apply lookup_ge_None in Hc. by rewrite Hc.
    + intros k c Hc. destruct (Hall k c Hc) as (r & Hr & Hconv). eauto.
Qed.

Lemma index_is_position_witness :
  index <$> [Sample.roe_record; Sample.id_record]
  = Z.of_nat <$> seq 0 (length [Sample.roe_record; Sample.id_record]).
Proof.
  exact (proj1 (proj2 (index_is_position Sample.lib Sample.roe_text
                         [Sample.roe_record; Sample.id_record]
                         roe_text_emits))).
Defined.

(** C6, as the script behaves: a record's [case_name] is non-null exactly
    when [plaintiff] and [defendant] are both non-null and non-empty strings,
    and it is then the string "{plaintiff} v. {defendant}". *)
Theorem case_name_iff_parties env stdin rs r :
  emits env stdin rs ->
  r ∈ rs ->
  (case_name r <> None <->
   exists p d, plaintiff r = Some p /\ defendant r = Some d /\
               p <> [] /\ d <> []) /\
  (forall name, case_name r = Some name ->
     exists p d, plaintiff r = Some p /\ defendant r = Some d /\
                 name = p ++ py " v. " ++ d).
Proof.
  intros He Hr. destruct (emits_installed _ _ _ He) as [lib ->].
  apply list_elem_of_lookup in Hr as [k Hr].
  destruct (emits_record _ _ _ _ _ He Hr) as (c & amap & _ & _ & Hc).
  apply convert_fields in Hc as (_ & _ & _ & _ & _ & Hname).
  rewrite Hname. clear Hname.
  destruct (plaintiff r) as [[|x p]|], (defendant r) as [[|y d]|]; simpl;
    (split;
     [ split;
       [ first [ congruence | intros _; eexists _, _; by repeat split ]
       | first [ intros (? & ? & ? & ? & ? & ?); congruence | congruence ] ]
     | intros name [= <-]; eexists _, _; by repeat split ]).
Qed.

Lemma case_name_iff_parties_witness :
  Sample.nameless_record ∈ [Sample.nameless_record] /\
  (case_name Sample.nameless_record <> None <->
   exists p d, plaintiff Sample.nameless_record = Some p /\
               defendant Sample.nameless_record = Some d /\
               p <> [] /\ d <> []).
Proof.
  assert (Hin : Sample.nameless_record ∈ [Sample.nameless_record])
    by (apply list_elem_of_here).
  split; [exact Hin|].
  refine (proj1 (case_name_iff_parties
                   (EyeciteInstalled (Sample.lib_returning [Sample.nameless] []))
                   Sample.roe_text [Sample.nameless_record]
                   Sample.nameless_record _ Hin)).
  apply (emits_intro _ _ _
           [CleanText Sample.roe_text clean_steps;
            GetCitations Sample.roe_text;
            ResolveCitations [Sample.nameless]]);
    [exact roe_text_not_whitespace | vm_compute; reflexivity].
Defined.

(** C6, as stated, fails: a record whose [plaintiff] is the empty string has
    both parties non-null and yet a null [case_name]. *)
Lemma case_name_null_with_both_parties :
  emits (EyeciteInstalled (Sample.lib_returning [Sample.nameless] []))
        Sample.roe_text [Sample.nameless_record] /\
  ~ (case_name Sample.nameless_record <> None <->
     plaintiff Sample.nameless_record <> None /\
     defendant Sample.nameless_record <> None).
Proof.
  split.
  - apply (emits_intro _ _ _
             [CleanText Sample.roe_text clean_steps;
              GetCitations Sample.roe_text;
              ResolveCitations [Sample.nameless]]);
      [exact roe_text_not_whitespace | vm_compute; reflexivity].
  - simpl. intros [_ H]. by apply H.
Qed.

Lemma get_citation_type_cases (c : Cite) :
  get_citation_type c ∈ type_strings /\
  (get_citation_type c = py "UNKNOWN" <-> cite_type c ∉ mapped_types).
Proof.
  unfold get_citation_type, type_strings, mapped_types.
  destruct (cite_type c); simpl.
  1-6: split; [set_solver|];
       split; [vm_compute; discriminate | intros H; exfalso; apply H; set_solver].
  split; [set_solver|]. split; [intros _|reflexivity].
  rewrite !elem_of_cons, elem_of_nil. intros H.
  repeat (destruct H as [H|H]; [discriminate|]). exact H.
Qed.

(** C7: the [citation_type] of every record is a JSON string, one of the
    seven type strings, and it is "UNKNOWN" exactly when the class of the
    citation at that position is none of the six mapped classes. *)
Theorem citation_type_closed lib stdin rs k r :
  emits (EyeciteInstalled lib) stdin rs ->
  rs !! k = Some r ->
  json_get (json_of_citation r) (py "citation_type")
  = Some (JStr (citation_type r)) /\
  citation_type r ∈ type_strings /\
  exists c, found_at lib stdin k c /\
            (citation_type r = py "UNKNOWN" <-> cite_type c ∉ mapped_types).
Proof.
  intros He Hr.
  destruct (emits_record _ _ _ _ _ He Hr) as (c & amap & Hf & _ & Hc).
  apply convert_fields in Hc as (_ & _ & Hty & _).
  split; [reflexivity|]. rewrite Hty.
  destruct (get_citation_type_cases c) as [Hin Hunk].
  split; [exact Hin|]. by exists c.
Qed.

Lemma citation_type_closed_witness :
  citation_type Sample.id_record ∈ type_strings /\
  exists c, found_at Sample.lib Sample.roe_text 1 c /\
            (citation_type Sample.id_record = py "UNKNOWN"
             <-> cite_type c ∉ mapped_types).
Proof.
  exact (proj2 (citation_type_closed Sample.lib Sample.roe_text
                  [Sample.roe_record; Sample.id_record] 1 Sample.id_record
                  roe_text_emits eq_refl)).
Defined.




(** ** Antecedents *)

Lemma antecedents_of_unique lib stdin m1 m2 :
  antecedents_of lib stdin m1 -> antecedents_of lib stdin m2 -> m1 = m2.
Proof.
  intros (cl1 & ci1 & re1 & H1 & H2 & H3 & ->)
         (cl2 & ci2 & re2 & G1 & G2 & G3 & ->).
  rewrite H1 in G1. injection G1 as <-.
  rewrite H2 in G2. injection G2 as <-.
  rewrite H3 in G3. by injection G3 as <-.
Qed.

(** C10: two records of one successful output with equal [raw] have equal
    [antecedent]. *)
Theorem equal_raw_equal_antecedent env stdin rs r1 r2 :
  emits env stdin rs ->
  r1 ∈ rs -> r2 ∈ rs ->
  raw r1 = raw r2 ->
  antecedent r1 = antecedent r2.
Proof.
  intros He H1 H2 Hraw. destruct (emits_installed _ _ _ He) as [lib ->].
  apply list_elem_of_lookup in H1 as [k1 H1], H2 as [k2 H2].
  destruct (emits_record _ _ _ _ _ He H1) as (c1 & m1 & _ & Hm1 & Hc1).
  destruct (emits_record _ _ _ _ _ He H2) as (c2 & m2 & _ & Hm2 & Hc2).
  rewrite (antecedents_of_unique _ _ _ _ Hm2 Hm1) in Hc2.
  apply convert_fields in Hc1 as (_ & Hr1 & _ & Ha1 & _).
  apply convert_fields in Hc2 as (_ & Hr2 & _ & Ha2 & _).
  congruence.
Qed.

Lemma equal_raw_equal_antecedent_witness :
  raw (Sample.id_record_at 0) = raw (Sample.id_record_at 1) /\
  antecedent (Sample.id_record_at 0) = antecedent (Sample.id_record_at 1).
Proof.
  split; [reflexivity|].
  apply (equal_raw_equal_antecedent _ _ _ _ _ twin_text_emits).
  - apply list_elem_of_here.
  - apply list_elem_of_further, list_elem_of_here.
  - reflexivity.
Defined.


(** Every entry of the map is [str(cite) -> str(cite.antecedent)] for some
    item with a truthy antecedent. *)
Lemma fold_antecedent_step_entry (l : list Resolved) :
  forall (m : gmap (list N) (list N)) k v,
    fold_left antecedent_step l m !! k = Some v ->
    m !! k = Some v \/
    exists r a, r ∈ l /\ resolved_str r = k /\ linked r a /\ value_str a = v.
Proof.
  induction l as [|r l IH]; intros m k v; simpl; [by left|].
  intros H. apply IH in H as [H|(r' & a & Hin & Hk & Hl & Hv)].
  - unfold antecedent_step in H.
    destruct (resolved_antecedent r) as [a|] eqn:Ha; [|by left].
    destruct (value_bool a) eqn:Hb; [|by left].
    destruct (decide (resolved_str r = k)) as [Hk|Hk].
    + subst k. rewrite lookup_insert_eq in H. injection H as <-.
      right. exists r, a. repeat split; try done. apply list_elem_of_here.
    + rewrite lookup_insert_ne in H by done. by left.
  - right. exists r', a. split; [by apply list_elem_of_further|done].
Qed.

Lemma build_antecedent_map_entry (resolved : list Resolved) k v :
  build_antecedent_map resolved !! k = Some v ->
  exists r a, r ∈ resolved /\ resolved_str r = k /\ linked r a /\
              value_str a = v.
Proof.
  intros H. apply fold_antecedent_step_entry in H as [H|H]; [|exact H].
  by rewrite lookup_empty in H.
Qed.




(** * Further properties of the adapter *)

(** ** When the conversion loop raises *)

Lemma convert_raise amap k c e :
  convert amap k c = Raise e <-> cite_span c = Some (Raise e).
Proof.
  unfold convert, span_of.
  destruct (cite_span c) as [[[s e']|err]|]; simpl; split; congruence.
Qed.

Lemma convert_total amap k c :
  ~ span_fails c -> exists r, convert amap k c = Ok r.
Proof.
  intros Hc. destruct (convert amap k c) as [r|e] eqn:H; [by exists r|].
  apply convert_raise in H. destruct Hc. by exists e.
Qed.

Lemma for_loop_convert_raise amap (cites : list Cite) :
  forall (i : nat) (acc : list CitationObj) e,
    for_loop (fun results '(i, cite) =>
                rbind (convert amap i cite)
                      (fun citation_obj => Ok (results ++ [citation_obj])))
             (enumerate_from i cites) acc = Raise e <->
    exists k c, first_span_failure cites k c e.
Proof.
  induction cites as [|c cites IH]; intros i acc e; simpl.
  - split; [discriminate|]. intros (k & c & Hk & _). by rewrite lookup_nil in Hk.
  - destruct (convert amap i c) as [o|e0] eqn:Ho; simpl.
    + assert (Hc : ~ span_fails c).
      { intros [e1 H1]. apply (convert_raise amap i) in H1. congruence. }
      rewrite IH. split.
      * intros (k & c' & Hk & Hs & Hearlier). exists (S k), c'.
        split; [exact Hk|]. split; [exact Hs|].
        intros [|j] c'' Hj Hl; simpl in Hl.
        -- by injection Hl as <-.
        -- apply (Hearlier j); [lia|exact Hl].
      * intros ([|k] & c' & Hk & Hs & Hearlier); simpl in Hk.
        -- injection Hk as <-. destruct Hc. by exists e.
        -- exists k, c'. split; [exact Hk|]. split; [exact Hs|].
           intros j c'' Hj Hl. apply (Hearlier (S j)); [lia|exact Hl].
    + apply convert_raise in Ho. split.
      * intros [= <-]. exists 0%nat, c. split; [reflexivity|].
        split; [exact Ho|]. intros j c' Hj. lia.
      * intros ([|k] & c' & Hk & Hs & Hearlier); simpl in Hk.
        -- injection Hk as <-. congruence.
        -- destruct (Hearlier 0%nat c); [lia|reflexivity|]. by exists e0.
Qed.

Lemma convert_all_raise amap (cites : list Cite) e :
  convert_all amap cites = Raise e <->
  exists k c, first_span_failure cites k c e.
Proof. apply for_loop_convert_raise. Qed.


Lemma extract_citations_unfold lib text calls0 :
  extract_citations lib text calls0
  = match clean_text lib text clean_steps with
    | Raise e => (Raise e, calls0 ++ [CleanText text clean_steps])
    | Ok cleaned =>
        match get_citations lib cleaned with
        | Raise e => (Raise e, calls0 ++ [CleanText text clean_steps;
                                          GetCitations cleaned])
        | Ok cites =>
            match resolve_citations lib cites with
            | Raise e => (Raise e, calls0 ++ [CleanText text clean_steps;
                                              GetCitations cleaned;
                                              ResolveCitations cites])
            | Ok resolved =>
                (convert_all (build_antecedent_map resolved) cites,
                 calls0 ++ [CleanText text clean_steps;
                            GetCitations cleaned;
                            ResolveCitations cites])
            end
        end
    end.
Proof.
  unfold extract_citations, bind, invoke, lift, ret, clean_steps.
  destruct (clean_text lib text _) as [cleaned|]; [|reflexivity].
  destruct (get_citations lib cleaned) as [cites|];
    [|by rewrite <- app_assoc].
  destruct (resolve_citations lib cites) as [resolved|];
    [|by rewrite <- !app_assoc].
  rewrite <- !app_assoc. simpl.
  by destruct (convert_all _ cites).
Qed.

(** ** Failures of the library *)

(** The pipeline stops at the first library step that raises: the steps
    after it are never called, the exception of that step is the one
    reported, and the exit code is 1. *)
Theorem pipeline_stops_at_first_failure lib stdin e :
  ~ whitespace_only stdin ->
  (clean_text lib stdin clean_steps = Raise e ->
   script (EyeciteInstalled lib) stdin
   = {| stdout := [error_doc e]; exit_code := 1;
        calls := [CleanText stdin clean_steps] |}) /\
  (forall cleaned,
     clean_text lib stdin clean_steps = Ok cleaned ->
     get_citations lib cleaned = Raise e ->
     script (EyeciteInstalled lib) stdin
     = {| stdout := [error_doc e]; exit_code := 1;
          calls := [CleanText stdin clean_steps; GetCitations cleaned] |}) /\
  (forall cleaned cites,
     clean_text lib stdin clean_steps = Ok cleaned ->
     get_citations lib cleaned = Ok cites ->
     resolve_citations lib cites = Raise e ->
     script (EyeciteInstalled lib) stdin
     = {| stdout := [error_doc e]; exit_code := 1;
          calls := [CleanText stdin clean_steps; GetCitations cleaned;
                    ResolveCitations cites] |}).
Proof.
  intros Hws. simpl. repeat split.
  - intros H1. apply main_raises; [exact Hws|].
    by rewrite extract_citations_unfold, H1.
  - intros cleaned H1 H2. apply main_raises; [exact Hws|].
    by rewrite extract_citations_unfold, H1, H2.
  - intros cleaned cites H1 H2 H3. apply main_raises; [exact Hws|].
    by rewrite extract_citations_unfold, H1, H2, H3.
Qed.

Lemma pipeline_stops_at_first_failure_witness :
  script (EyeciteInstalled Sample.silent_lib) Sample.roe_text
  = {| stdout := [error_doc (Exception [])]; exit_code := 1;
       calls := [CleanText Sample.roe_text clean_steps] |}.
Proof.
  exact (proj1 (pipeline_stops_at_first_failure Sample.silent_lib
                  Sample.roe_text (Exception [])
                  roe_text_not_whitespace) eq_refl).
Defined.

(** When the three library steps return but the [span()] of some citation
    raises, the run fails with the exception of the first such citation in
    extraction order: no record is printed, not even those of the citations
    before it. *)
Theorem span_failure_fails_run lib stdin cleaned cites resolved k c e :
  ~ whitespace_only stdin ->
  clean_text lib stdin clean_steps = Ok cleaned ->
  get_citations lib cleaned = Ok cites ->
  resolve_citations lib cites = Ok resolved ->
  first_span_failure cites k c e ->
  script (EyeciteInstalled lib) stdin
  = {| stdout := [error_doc e]; exit_code := 1;
       calls := [CleanText stdin clean_steps; GetCitations cleaned;
                 ResolveCitations cites] |}.
Proof.
  intros Hws H1 H2 H3 Hf. simpl. apply main_raises; [exact Hws|].
  rewrite extract_citations_unfold, H1, H2, H3.
  assert (H : convert_all (build_antecedent_map resolved) cites = Raise e).
  { apply convert_all_raise. by exists k, c. }
  by rewrite H.
Qed.

Lemma span_failure_fails_run_witness :
  script (EyeciteInstalled
            (Sample.lib_returning [Sample.roe; Sample.broken] []))
         Sample.roe_text
  = {| stdout := [error_doc (Exception (py "no token"))]; exit_code := 1;
       calls := [CleanText Sample.roe_text clean_steps;
                 GetCitations Sample.roe_text;
                 ResolveCitations [Sample.roe; Sample.broken]] |}.
Proof.
  apply (span_failure_fails_run
           (Sample.lib_returning [Sample.roe; Sample.broken] [])
           Sample.roe_text Sample.roe_text [Sample.roe; Sample.broken] []
           1 Sample.broken (Exception (py "no token"))
           roe_text_not_whitespace eq_refl eq_refl eq_refl).
  split; [reflexivity|]. split; [reflexivity|].
  intros [|j] c' Hj Hl; [|lia].
  injection Hl as <-. intros [e He]. discriminate.
Defined.



(** ** The calls made into the library *)

(** On a successful run over text that is not whitespace the library is
    called exactly three times, in the order clean, extract, resolve: the
    cleaning step gets the input as read (not stripped), the extraction gets
    the cleaned text, and the resolution gets the extracted citations. *)
Theorem calls_on_success lib stdin rs :
  ~ whitespace_only stdin ->
  emits (EyeciteInstalled lib) stdin rs ->
  exists cleaned cites,
    clean_text lib stdin clean_steps = Ok cleaned /\
    get_citations lib cleaned = Ok cites /\
    calls (script (EyeciteInstalled lib) stdin)
    = [CleanText stdin clean_steps; GetCitations cleaned;
       ResolveCitations cites].
Proof.
  intros Hws He.
  apply emits_inv in He as (lib' & [= <-] & [[? _]|[_ (cs & He)]]); [done|].
  simpl. rewrite (main_returns _ _ _ _ Hws He). simpl.
  apply extract_citations_ok in He
    as (cleaned & cites & resolved & H1 & H2 & _ & _ & ->).
  by exists cleaned, cites.
Qed.

Lemma calls_on_success_witness :
  exists cleaned cites,
    clean_text Sample.lib Sample.roe_text clean_steps = Ok cleaned /\
    get_citations Sample.lib cleaned = Ok cites /\
    calls (script (EyeciteInstalled Sample.lib) Sample.roe_text)
    = [CleanText Sample.roe_text clean_steps; GetCitations cleaned;
       ResolveCitations cites].
Proof.
  exact (calls_on_success Sample.lib Sample.roe_text
           [Sample.roe_record; Sample.id_record]
           roe_text_not_whitespace roe_text_emits).
Defined.


(** ** The printed document *)




(** When the library finds no citation in text that is not whitespace, the
    run succeeds with the same JSON value as for whitespace-only input
    (an empty array and count 0), whatever the resolution of the empty list
    returns; only the indentation differs. *)
Theorem no_citations_found lib stdin cleaned resolved :
  ~ whitespace_only stdin ->
  clean_text lib stdin clean_steps = Ok cleaned ->
  get_citations lib cleaned = Ok [] ->
  resolve_citations lib [] = Ok resolved ->
  stdout (script (EyeciteInstalled lib) stdin)
  = [ {| printed_indent := Some 2%nat;
         printed_doc := JObj [ (py "citations", JArr []);
                               (py "count", JInt 0) ] |} ] /\
  exit_code (script (EyeciteInstalled lib) stdin) = 0.
Proof.
  intros Hws H1 H2 H3. simpl.
  rewrite (main_returns lib stdin []
             [CleanText stdin clean_steps; GetCitations cleaned;
              ResolveCitations []] Hws); [by split|].
  by rewrite extract_citations_unfold, H1, H2, H3.
Qed.

Lemma no_citations_found_witness :
  stdout (script (EyeciteInstalled (Sample.lib_returning [] Sample.roe_resolved))
                 Sample.roe_text)
  = [ {| printed_indent := Some 2%nat;
         printed_doc := JObj [ (py "citations", JArr []);
                               (py "count", JInt 0) ] |} ] /\
  exit_code (script (EyeciteInstalled
                       (Sample.lib_returning [] Sample.roe_resolved))
                    Sample.roe_text) = 0.
Proof.
  exact (no_citations_found (Sample.lib_returning [] Sample.roe_resolved)
           Sample.roe_text Sample.roe_text Sample.roe_resolved
           roe_text_not_whitespace eq_refl eq_refl eq_refl).
Defined.

(** ** Where the fields of a record come from *)

Lemma convert_sources amap k c r :
  convert amap k c = Ok r ->
  volume r = groups_get (groups_of c) (py "volume") /\
  reporter r = groups_get (groups_of c) (py "reporter") /\
  page r = groups_get (groups_of c) (py "page") /\
  pinpoint r
  = safe_get (getattr_or_None (cite_metadata c)) (py "pin_cite") None /\
  year r = safe_get (getattr_or_None (cite_metadata c)) (py "year") None /\
  court r = safe_get (getattr_or_None (cite_metadata c)) (py "court") None /\
  plaintiff r
  = safe_get (getattr_or_None (cite_metadata c)) (py "plaintiff") None /\
  defendant r
  = safe_get (getattr_or_None (cite_metadata c)) (py "defendant") None.
Proof.
  unfold convert. destruct (span_of c) as [sp|e]; simpl; [|discriminate].
  destruct (opt_bool (safe_get _ (py "plaintiff") None)
            && opt_bool (safe_get _ (py "defendant") None));
    intros [= <-]; simpl; by repeat split.
Qed.

Lemma groups_get_groups_of c key s :
  groups_get (groups_of c) key = Some s <->
  exists d, cite_groups c = AttrVal d /\ d !! key = Some (Some s).
Proof.
  unfold groups_get, groups_of.
  destruct (cite_groups c) as [| |d]; simpl.
  - rewrite decide_True by done. rewrite lookup_empty.
    split; [discriminate|]. by intros (d & ? & _).
  - rewrite lookup_empty. split; [discriminate|]. by intros (d & ? & _).
  - destruct (decide (d = ∅)) as [->|Hd].
    + rewrite lookup_empty. split; [discriminate|].
      intros (d & [= <-] & H). by rewrite lookup_empty in H.
    + split.
      * destruct (d !! key) as [[v|]|] eqn:Hk; try discriminate.
        intros [= ->]. by exists d.
      * intros (d' & [= <-] & ->). reflexivity.
Qed.

Lemma safe_get_metadata_items c name s :
  safe_get (getattr_or_None (cite_metadata c)) name None = Some s <->
  exists m, metadata_items c = Some m /\ m !! name = Some (Some s).
Proof.
  unfold safe_get, getattr_or_None, metadata_items.
  destruct (cite_metadata c) as [| |[m|m]]; simpl;
    try (split; [discriminate | by intros (m & ? & _)]).
  - split.
    + destruct (m !! name) as [[v|]|] eqn:Hk; try discriminate.
      intros [= ->]. by exists m.
    + intros (m' & [= <-] & ->). reflexivity.
  - split.
    + destruct (m !! name) as [[v|]|] eqn:Hk; try discriminate.
      intros [= ->]. by exists m.
    + intros (m' & [= <-] & ->). reflexivity.
Qed.

Lemma found_at_unique lib stdin k c c' :
  found_at lib stdin k c -> found_at lib stdin k c' -> c = c'.
Proof.
  intros (cl & ci & H1 & H2 & H3) (cl' & ci' & G1 & G2 & G3).
  rewrite H1 in G1. injection G1 as <-.
  rewrite H2 in G2. injection G2 as <-. congruence.
Qed.

(** [volume], [reporter] and [page] of a record are strings exactly when the
    citation at that position has a [groups] dict holding a string under
    that key; a missing or [None] [groups], a missing key and a key mapped
    to [None] all give null. *)
Theorem group_fields lib stdin rs k r :
  emits (EyeciteInstalled lib) stdin rs ->
  rs !! k = Some r ->
  exists c, found_at lib stdin k c /\
    forall s,
      (volume r = Some s <->
       exists d, cite_groups c = AttrVal d /\
                 d !! py "volume" = Some (Some s)) /\
      (reporter r = Some s <->
       exists d, cite_groups c = AttrVal d /\
                 d !! py "reporter" = Some (Some s)) /\
      (page r = Some s <->
       exists d, cite_groups c = AttrVal d /\
                 d !! py "page" = Some (Some s)).
Proof.
  intros He Hr.
  destruct (emits_record _ _ _ _ _ He Hr) as (c & amap & Hf & _ & Hc).
  apply convert_sources in Hc as (-> & -> & -> & _).
  exists c. split; [exact Hf|]. intros s.
  repeat split; by apply groups_get_groups_of.
Qed.

Lemma group_fields_witness :
  exists c, found_at Sample.lib Sample.roe_text 0 c /\
    forall s,
      (volume Sample.roe_record = Some s <->
       exists d, cite_groups c = AttrVal d /\
                 d !! py "volume" = Some (Some s)) /\
      (reporter Sample.roe_record = Some s <->
       exists d, cite_groups c = AttrVal d /\
                 d !! py "reporter" = Some (Some s)) /\
      (page Sample.roe_record = Some s <->
       exists d, cite_groups c = AttrVal d /\
                 d !! py "page" = Some (Some s)).
Proof.
  exact (group_fields Sample.lib Sample.roe_text
           [Sample.roe_record; Sample.id_record] 0 Sample.roe_record
           roe_text_emits eq_refl).
Defined.

(** [pinpoint], [year], [court], [plaintiff] and [defendant] of a record are
    strings exactly when the citation's [metadata], be it an object or a
    dict, holds a string under [pin_cite], [year], [court], [plaintiff] and
    [defendant]: the record's [pinpoint] is the library's [pin_cite]. *)
Theorem metadata_fields lib stdin rs k r :
  emits (EyeciteInstalled lib) stdin rs ->
  rs !! k = Some r ->
  exists c, found_at lib stdin k c /\
    forall s,
      (pinpoint r = Some s <->
       exists m, metadata_items c = Some m /\
                 m !! py "pin_cite" = Some (Some s)) /\
      (year r = Some s <->
       exists m, metadata_items c = Some m /\
                 m !! py "year" = Some (Some s)) /\
      (court r = Some s <->
       exists m, metadata_items c = Some m /\
                 m !! py "court" = Some (Some s)) /\
      (plaintiff r = Some s <->
       exists m, metadata_items c = Some m /\
                 m !! py "plaintiff" = Some (Some s)) /\
      (defendant r = Some s <->
       exists m, metadata_items c = Some m /\
                 m !! py "defendant" = Some (Some s)).
Proof.
  intros He Hr.
  destruct (emits_record _ _ _ _ _ He Hr) as (c & amap & Hf & _ & Hc).
  apply convert_sources in Hc as (_ & _ & _ & -> & -> & -> & -> & ->).
  exists c. split; [exact Hf|]. intros s.
  repeat split; by apply safe_get_metadata_items.
Qed.

Lemma metadata_fields_witness :
  exists c, found_at Sample.lib Sample.roe_text 1 c /\
    forall s,
      (pinpoint Sample.id_record = Some s <->
       exists m, metadata_items c = Some m /\
                 m !! py "pin_cite" = Some (Some s)) /\
      (year Sample.id_record = Some s <->
       exists m, metadata_items c = Some m /\
                 m !! py "year" = Some (Some s)) /\
      (court Sample.id_record = Some s <->
       exists m, metadata_items c = Some m /\
                 m !! py "court" = Some (Some s)) /\
      (plaintiff Sample.id_record = Some s <->
       exists m, metadata_items c = Some m /\
                 m !! py "plaintiff" = Some (Some s)) /\
      (defendant Sample.id_record = Some s <->
       exists m, metadata_items c = Some m /\
                 m !! py "defendant" = Some (Some s)).
Proof.
  exact (metadata_fields Sample.lib Sample.roe_text
           [Sample.roe_record; Sample.id_record] 1 Sample.id_record
           roe_text_emits eq_refl).
Defined.

(** A citation with no [metadata] attribute, or with [metadata] set to
    [None], gives a record whose five metadata fields and [case_name] are
    all null. *)
Theorem no_metadata_no_case_name lib stdin rs k r c :
  emits (EyeciteInstalled lib) stdin rs ->
  rs !! k = Some r ->
  found_at lib stdin k c ->
  metadata_items c = None ->
  pinpoint r = None /\ year r = None /\ court r = None /\
  plaintiff r = None /\ defendant r = None /\ case_name r = None.
Proof.
  intros He Hr Hf Hm.
  destruct (emits_record _ _ _ _ _ He Hr) as (c' & amap & Hf' & _ & Hc).
  rewrite <- (found_at_unique _ _ _ _ _ Hf Hf') in Hc.
  pose proof (convert_sources _ _ _ _ Hc)
    as (_ & _ & _ & Hpin & Hy & Hco & Hpl & Hd).
  apply convert_fields in Hc as (_ & _ & _ & _ & _ & Hname).
  assert (Hnone : forall name,
             safe_get (getattr_or_None (cite_metadata c)) name None = None).
  { intros name.
    destruct (safe_get (getattr_or_None (cite_metadata c)) name None)
      as [s|] eqn:Hs; [|reflexivity].
    apply safe_get_metadata_items in Hs as (m & Hm' & _). congruence. }
  rewrite Hnone in Hpin, Hy, Hco, Hpl, Hd.
  rewrite Hname, Hpl, Hd. by repeat split.
Qed.

Lemma no_metadata_no_case_name_witness :
  pinpoint Sample.backwards_record = None /\
  year Sample.backwards_record = None /\
  court Sample.backwards_record = None /\
  plaintiff Sample.backwards_record = None /\
  defendant Sample.backwards_record = None /\
  case_name Sample.backwards_record = None.
Proof.
  apply (no_metadata_no_case_name
           (Sample.lib_returning [Sample.backwards] [])
           Sample.roe_text [Sample.backwards_record] 0
           Sample.backwards_record Sample.backwards).
  - apply (emits_intro _ _ _
             [CleanText Sample.roe_text clean_steps;
              GetCitations Sample.roe_text;
              ResolveCitations [Sample.backwards]]);
      [exact roe_text_not_whitespace | vm_compute; reflexivity].
  - reflexivity.
  - by exists Sample.roe_text, [Sample.backwards].
  - reflexivity.
Defined.

(** The type string tells the six mapped classes apart: two citations with
    the same [citation_type], one of them of a mapped class, have the same
    class. *)
Theorem type_string_determines_class (c c' : Cite) :
  cite_type c ∈ mapped_types ->
  get_citation_type c = get_citation_type c' ->
  cite_type c = cite_type c'.
Proof.
  unfold get_citation_type, mapped_types. intros Hin.
  destruct (cite_type c), (cite_type c'); simpl; intros H;
    first [ reflexivity
          | by vm_compute in H
          | exfalso; revert Hin; rewrite !elem_of_cons, elem_of_nil;
            intros Hin; repeat (destruct Hin as [Hin|Hin]; [discriminate|]);
            exact Hin ].
Qed.

Lemma type_string_determines_class_witness :
  cite_type Sample.roe = cite_type Sample.nameless.
Proof.
  apply (type_string_determines_class Sample.roe Sample.nameless).
  - apply list_elem_of_here.
  - reflexivity.
Defined.

(** ** The antecedent map *)

Lemma fold_antecedent_step_untouched (l : list Resolved) :
  forall (m : gmap (list N) (list N)) k,
    (forall r a, r ∈ l -> resolved_str r = k -> ~ linked r a) ->
    fold_left antecedent_step l m !! k = m !! k.
Proof.
  induction l as [|r l IH]; intros m k Hno; simpl; [reflexivity|].
  rewrite IH.
  - unfold antecedent_step.
    destruct (resolved_antecedent r) as [a|] eqn:Ha; [|reflexivity].
    destruct (value_bool a) eqn:Hb; [|reflexivity].
    destruct (decide (resolved_str r = k)) as [Hk|Hk].
    + destruct (Hno r a); [apply list_elem_of_here|exact Hk|by split].
    + by rewrite lookup_insert_ne.
  - intros r' a Hin. apply Hno. by apply list_elem_of_further.
Qed.

Lemma build_antecedent_map_app (l1 l2 : list Resolved) :
  build_antecedent_map (l1 ++ l2)
  = fold_left antecedent_step l2 (build_antecedent_map l1).
Proof. unfold build_antecedent_map. apply fold_left_app. Qed.

(** The last item wins: among the resolved items with a given string form
    and a truthy antecedent, the map keeps the antecedent of the one that
    comes last, whatever came before. *)
Theorem antecedent_last_wins (l1 l2 : list Resolved) (r : Resolved)
    (a : PyValue) :
  linked r a ->
  (forall r' a', r' ∈ l2 -> resolved_str r' = resolved_str r ->
                 ~ linked r' a') ->
  build_antecedent_map (l1 ++ r :: l2) !! resolved_str r
  = Some (value_str a).
Proof.
  intros [Ha Hb] Hlater.
  rewrite build_antecedent_map_app. simpl.
  rewrite fold_antecedent_step_untouched by exact Hlater.
  unfold antecedent_step. rewrite Ha, Hb. apply lookup_insert_eq.
Qed.

Lemma antecedent_last_wins_witness :
  build_antecedent_map
    ([ {| resolved_str := py "Id.";
          resolved_antecedent := Some (Sample.as_value Sample.roe) |} ]
     ++ {| resolved_str := py "Id.";
           resolved_antecedent := Some (Sample.as_value Sample.backwards) |}
     :: [ {| resolved_str := py "Id."; resolved_antecedent := None |} ])
  !! py "Id."
  = Some (py "113").
Proof.
  apply (antecedent_last_wins
           [ {| resolved_str := py "Id.";
                resolved_antecedent := Some (Sample.as_value Sample.roe) |} ]
           [ {| resolved_str := py "Id."; resolved_antecedent := None |} ]
           {| resolved_str := py "Id.";
              resolved_antecedent := Some (Sample.as_value Sample.backwards) |}
           (Sample.as_value Sample.backwards)).
  - split; reflexivity.
  - intros r' a' Hin _ [Hl _].
    apply elem_of_cons in Hin as [->|Hin]; [discriminate|].
    by apply elem_of_nil in Hin.
Defined.

Lemma fold_antecedent_step_is_Some (l : list Resolved) :
  forall (m : gmap (list N) (list N)) k,
    (is_Some (m !! k) \/
     exists r a, r ∈ l /\ resolved_str r = k /\ linked r a) ->
    is_Some (fold_left antecedent_step l m !! k).
Proof.
  induction l as [|r l IH]; intros m k H; simpl.
  - destruct H as [H|(r & a & Hin & _)]; [exact H|].
    by apply elem_of_nil in Hin.
  - apply IH. destruct H as [H|(r' & a & Hin & Hk & Hl)].
    + left. unfold antecedent_step.
      destruct (resolved_antecedent r) as [a|]; [|exact H].
      destruct (value_bool a); [|exact H].
      destruct (decide (resolved_str r = k)) as [->|Hne].
      * rewrite lookup_insert_eq. by eexists.
      * by rewrite lookup_insert_ne.
    + apply elem_of_cons in Hin as [->|Hin].
      * left. destruct Hl as [Ha Hb]. unfold antecedent_step.
        rewrite Ha, Hb, <- Hk, lookup_insert_eq. by eexists.
      * right. by exists r', a.
Qed.

(** The [antecedent] of a record is what the map built over the resolved
    items holds for the record's [raw]: when it is a string, it is the
    string form of the truthy antecedent of a resolved item whose own string
    form is the record's [raw]; and it is null exactly when no resolved item
    with that string form has a truthy antecedent. *)
Theorem antecedent_of_record lib stdin rs k r :
  emits (EyeciteInstalled lib) stdin rs ->
  rs !! k = Some r ->
  exists resolved,
    resolution_of lib stdin resolved /\
    antecedent r = build_antecedent_map resolved !! raw r /\
    (forall v, antecedent r = Some v ->
       exists item a, item ∈ resolved /\ resolved_str item = raw r /\
                      linked item a /\ value_str a = v) /\
    (antecedent r = None <->
     forall item a, item ∈ resolved -> resolved_str item = raw r ->
                    ~ linked item a).
Proof.
  intros He Hr.
  destruct (emits_record _ _ _ _ _ He Hr)
    as (c & amap & _ & (cl & ci & resolved & H1 & H2 & H3 & ->) & Hc).
  apply convert_fields in Hc as (_ & Hraw & _ & Ha & _).
  rewrite <- Hraw in Ha.
  exists resolved. split; [by exists cl, ci|]. split; [exact Ha|].
  rewrite Ha. split.
  - intros v Hv. by apply build_antecedent_map_entry.
  - split.
    + intros Hnone item a Hin Hk Hl.
      assert (Hs : is_Some (build_antecedent_map resolved !! raw r)).
      { apply fold_antecedent_step_is_Some. right. by exists item, a. }
      rewrite Hnone in Hs. by destruct Hs.
    + intros Hno. unfold build_antecedent_map.
      rewrite fold_antecedent_step_untouched by exact Hno.
      apply lookup_empty.
Qed.

Lemma antecedent_of_record_witness :
  exists resolved,
    resolution_of Sample.lib Sample.roe_text resolved /\
    antecedent Sample.id_record
    = build_antecedent_map resolved !! raw Sample.id_record /\
    (forall v, antecedent Sample.id_record = Some v ->
       exists item a, item ∈ resolved /\
                      resolved_str item = raw Sample.id_record /\
                      linked item a /\ value_str a = v) /\
    (antecedent Sample.id_record = None <->
     forall item a, item ∈ resolved ->
                    resolved_str item = raw Sample.id_record ->
                    ~ linked item a).
Proof.
  exact (antecedent_of_record Sample.lib Sample.roe_text
           [Sample.roe_record; Sample.id_record] 1 Sample.id_record
           roe_text_emits eq_refl).
Defined.

Lemma convert_without_antecedent m1 m2 k c r1 r2 :
  convert m1 k c = Ok r1 ->
  convert m2 k c = Ok r2 ->
  without_antecedent r1 = without_antecedent r2.
Proof.
  unfold convert. destruct (span_of c) as [sp|e]; simpl; [|discriminate].
  destruct (opt_bool (safe_get _ (py "plaintiff") None)
            && opt_bool (safe_get _ (py "defendant") None));
    intros [= <-] [= <-]; reflexivity.
Qed.

(** The resolution step decides nothing but the [antecedent] fields: two
    libraries that clean and extract alike, whatever their resolutions
    return, give the same records in the same order up to [antecedent]. *)
Theorem resolution_only_affects_antecedent lib1 lib2 stdin rs1 rs2 :
  clean_text lib1 stdin clean_steps = clean_text lib2 stdin clean_steps ->
  (forall cleaned, get_citations lib1 cleaned = get_citations lib2 cleaned) ->
  emits (EyeciteInstalled lib1) stdin rs1 ->
  emits (EyeciteInstalled lib2) stdin rs2 ->
  without_antecedent <$> rs1 = without_antecedent <$> rs2.
Proof.
  intros Hclean Hget He1 He2.
  apply emits_inv in He1 as (l1 & [= <-] & He1).
  apply emits_inv in He2 as (l2 & [= <-] & He2).
  destruct He1 as [[Hws ->]|[Hws (cs1 & He1)]],
           He2 as [[Hws' ->]|[Hws' (cs2 & He2)]]; try done.
  apply extract_citations_ok in He1
    as (cl1 & ci1 & re1 & H1 & H2 & _ & H4 & _).
  apply extract_citations_ok in He2
    as (cl2 & ci2 & re2 & G1 & G2 & _ & G4 & _).
  rewrite Hclean, G1 in H1. injection H1 as <-.
  rewrite Hget, G2 in H2. injection H2 as <-.
  destruct (convert_all_ok _ _ _ H4) as [Hlen1 Hall1].
  destruct (convert_all_ok _ _ _ G4) as [Hlen2 Hall2].
  apply list_eq. intros k. rewrite !list_lookup_fmap.
  destruct (ci2 !! k) as [c|] eqn:Hc.
  - destruct (Hall1 k c Hc) as (r1 & -> & Hc1).
    destruct (Hall2 k c Hc) as (r2 & -> & Hc2). simpl. f_equal.
    by eapply convert_without_antecedent.
  - apply lookup_ge_None in Hc.
    rewrite (proj2 (lookup_ge_None rs1 k)) by lia.
    by rewrite (proj2 (lookup_ge_None rs2 k)) by lia.
Qed.

Lemma resolution_only_affects_antecedent_witness :
  without_antecedent <$> [Sample.roe_record; Sample.id_record]
  = without_antecedent <$> [Sample.roe_record;
                            without_antecedent Sample.id_record].
Proof.
  apply (resolution_only_affects_antecedent
           Sample.lib (Sample.lib_returning [Sample.roe; Sample.id_cite] [])
           Sample.roe_text).
  - reflexivity.
  - reflexivity.
  - exact roe_text_emits.
  - apply (emits_intro _ _ _
             [CleanText Sample.roe_text clean_steps;
              GetCitations Sample.roe_text;
              ResolveCitations [Sample.roe; Sample.id_cite]]);
      [exact roe_text_not_whitespace | vm_compute; reflexivity].
Defined.
